(** * VTK: vtkWasmSceneManager and vtkGLTFTexture

    A shallow embedding of
    - [Web/WebAssembly/vtkWasmSceneManager.cxx]: the identifier-addressed
      operations a remote controller drives (SetSize, Render, ResetCamera,
      StartEventLoop, StopEventLoop, AddObserver, RemoveObserver);
    - [vtkGLTFTexture::GetVTKTexture]: the sampler-to-texture conversion.

    The scene manager is stateful C++: it is embedded in a state-and-fault
    monad over the object table, the process-global static
    [vtkRenderWindowInteractor::InteractorManagesTheEventLoop] and a log of
    the calls made on the native collaborators and on external callbacks. *)

From Stdlib Require Import ZArith NArith.
From stdpp Require Import base option list gmap strings.

Local Open Scope N_scope.

(** ** Outcome of a call: a value and the state left behind, or a fault
    (the C++ call dereferenced a null pointer) with the state reached. *)
Inductive Outcome (St A : Type) : Type :=
| Returns (a : A) (s : St)
| Faults (s : St).
Arguments Returns {St A} a s.
Arguments Faults {St A} s.

Definition returned {St A} (o : Outcome St A) : option A :=
  match o with Returns a _ => Some a | Faults _ => None end.

Definition final {St A} (o : Outcome St A) : St :=
  match o with Returns _ s => s | Faults s => s end.

Definition faulted {St A} (o : Outcome St A) : bool :=
  match o with Returns _ _ => false | Faults _ => true end.

Module vtkGLTFTexture.

(** vtkGLTFDocumentLoader::Sampler and its enumerations (the glTF sampler
    filter and wrap modes), as GetVTKTexture reads them. *)
Inductive FilterType : Type :=
| NEAREST
| LINEAR
| NEAREST_MIPMAP_NEAREST
| LINEAR_MIPMAP_NEAREST
| NEAREST_MIPMAP_LINEAR
| LINEAR_MIPMAP_LINEAR.

Inductive WrapType : Type :=
| CLAMP_TO_EDGE
| MIRRORED_REPEAT
| REPEAT.

#[global] Instance FilterType_eq_dec : EqDecision FilterType.
Proof. solve_decision. Defined.

#[global] Instance WrapType_eq_dec : EqDecision WrapType.
Proof. solve_decision. Defined.

Record SamplerT : Type := mkSampler {
  MagFilter : FilterType;
  MinFilter : FilterType;
  WrapS : WrapType;
  WrapT : WrapType
}.

(** The settings of a vtkTexture that GetVTKTexture writes. *)
Inductive ColorModeT : Type :=
| VTK_COLOR_MODE_DEFAULT
| VTK_COLOR_MODE_MAP_SCALARS
| VTK_COLOR_MODE_DIRECT_SCALARS.

Inductive BlendingModeT : Type :=
| VTK_TEXTURE_BLENDING_MODE_NONE
| VTK_TEXTURE_BLENDING_MODE_REPLACE
| VTK_TEXTURE_BLENDING_MODE_MODULATE
| VTK_TEXTURE_BLENDING_MODE_ADD
| VTK_TEXTURE_BLENDING_MODE_ADD_SIGNED
| VTK_TEXTURE_BLENDING_MODE_INTERPOLATE
| VTK_TEXTURE_BLENDING_MODE_SUBTRACT.

Record vtkTexture : Type := mkTexture {
  ColorMode : ColorModeT;
  BlendingMode : BlendingModeT;
  Mipmap : bool;
  Repeat : bool;
  EdgeClamp : bool;
  Interpolate : bool;
  InputData : option N
}.

(** The setters called on the texture. *)
Definition SetColorModeToDirectScalars (t : vtkTexture) : vtkTexture :=
  mkTexture VTK_COLOR_MODE_DIRECT_SCALARS (BlendingMode t) (Mipmap t) (Repeat t)
            (EdgeClamp t) (Interpolate t) (InputData t).

Definition SetBlendingMode (mode : BlendingModeT) (t : vtkTexture) : vtkTexture :=
  mkTexture (ColorMode t) mode (Mipmap t) (Repeat t) (EdgeClamp t)
            (Interpolate t) (InputData t).

Definition SetMipmap (b : bool) (t : vtkTexture) : vtkTexture :=
  mkTexture (ColorMode t) (BlendingMode t) b (Repeat t) (EdgeClamp t)
            (Interpolate t) (InputData t).

Definition SetRepeat (b : bool) (t : vtkTexture) : vtkTexture :=
  mkTexture (ColorMode t) (BlendingMode t) (Mipmap t) b (EdgeClamp t)
            (Interpolate t) (InputData t).

Definition SetEdgeClamp (b : bool) (t : vtkTexture) : vtkTexture :=
  mkTexture (ColorMode t) (BlendingMode t) (Mipmap t) (Repeat t) b
            (Interpolate t) (InputData t).

Definition SetInterpolate (b : bool) (t : vtkTexture) : vtkTexture :=
  mkTexture (ColorMode t) (BlendingMode t) (Mipmap t) (Repeat t) (EdgeClamp t)
            b (InputData t).

Definition SetInputData (image : option N) (t : vtkTexture) : vtkTexture :=
  mkTexture (ColorMode t) (BlendingMode t) (Mipmap t) (Repeat t) (EdgeClamp t)
            (Interpolate t) image.

(** The vtkGLTFTexture object: its sampler and its image (a pointer). *)
Record vtkGLTFTexture : Type := mkGLTFTexture {
  Sampler : SamplerT;
  Image : option N
}.

(** Modelled from the spec: vtkWarningWithObjectMacro (not among the sources)
    logs its message as a warning: "unsupported-but-non-fatal conditions are
    logged as warnings". *)
Definition vtkWarningWithObjectMacro (message : string) : list string := [message].

Section GetVTKTexture.

(** The texture [vtkNew<vtkTexture>] constructs; the constructor of vtkTexture
    is not among the sources. *)
Variable New : vtkTexture.

(** The texture returned, and the warnings logged on the way. *)
Definition GetVTKTexture (this : vtkGLTFTexture) : vtkTexture * list string :=
  let texture := New in
  let texture := SetColorModeToDirectScalars texture in
  let texture := SetBlendingMode VTK_TEXTURE_BLENDING_MODE_MODULATE texture in
  let texture :=
    if bool_decide (MinFilter (Sampler this) = NEAREST)
       || bool_decide (MinFilter (Sampler this) = LINEAR)
    then SetMipmap false texture
    else SetMipmap true texture in
  let '(texture, warnings) :=
    if bool_decide (WrapS (Sampler this) = CLAMP_TO_EDGE)
       || bool_decide (WrapT (Sampler this) = CLAMP_TO_EDGE)
    then (SetEdgeClamp true (SetRepeat false texture), [])
    else if bool_decide (WrapS (Sampler this) = REPEAT)
            || bool_decide (WrapT (Sampler this) = REPEAT)
    then (SetEdgeClamp false (SetRepeat true texture), [])
    else (texture,
          vtkWarningWithObjectMacro "Mirrored texture wrapping is not supported!") in
  let texture :=
    if bool_decide (MinFilter (Sampler this) = LINEAR)
       || bool_decide (MinFilter (Sampler this) = LINEAR_MIPMAP_NEAREST)
       || bool_decide (MinFilter (Sampler this) = NEAREST_MIPMAP_LINEAR)
       || bool_decide (MinFilter (Sampler this) = LINEAR_MIPMAP_LINEAR)
       || bool_decide (MagFilter (Sampler this) = LINEAR)
       || bool_decide (MagFilter (Sampler this) = LINEAR_MIPMAP_NEAREST)
       || bool_decide (MagFilter (Sampler this) = NEAREST_MIPMAP_LINEAR)
       || bool_decide (MagFilter (Sampler this) = LINEAR_MIPMAP_LINEAR)
    then SetInterpolate true texture
    else texture in
  let texture := SetInputData (Image this) texture in
  (texture, warnings).

End GetVTKTexture.

(** The texture the constructor of vtkTexture builds, for the examples. *)
Definition demo_New : vtkTexture :=
  mkTexture VTK_COLOR_MODE_DEFAULT VTK_TEXTURE_BLENDING_MODE_NONE
            false true false false None.

Definition demo_mirrored : vtkGLTFTexture :=
  mkGLTFTexture (mkSampler LINEAR NEAREST MIRRORED_REPEAT MIRRORED_REPEAT) (Some 5).

End vtkGLTFTexture.

Module vtkWasmSceneManager.

(** vtkTypeUInt32 identifiers and unsigned long observer tags are naturals;
    [int] sizes are integers; native objects outside the table (the
    interactor a render window points to) are named by their address. *)
Abbreviation vtkTypeUInt32 := N (only parsing).
Abbreviation ptr := N (only parsing).

(** [ObserverCallbackF]: a pointer to an external function
    [void (vtkTypeUInt32, const char* )]; calling it is an entry of the log. *)
Abbreviation ObserverCallbackF := N (only parsing).

(** struct CallbackBridge { ObserverCallbackF f; vtkTypeUInt32 SenderId; } *)
Record CallbackBridge : Type := mkCallbackBridge {
  f : ObserverCallbackF;
  SenderId : vtkTypeUInt32
}.

(** What the manager does to its collaborators, in program order. *)
Inductive Effect : Type :=
| Call_UpdateSize (iren : ptr) (width height : Z)
| Call_Render (identifier : vtkTypeUInt32)
| Call_ResetCamera (identifier : vtkTypeUInt32)
| Call_Start (interactor : ptr)
| Call_TerminateApp (interactor : ptr)
| Cout_Started (identifier : vtkTypeUInt32) (interactor : ptr)
| Cout_Stopping (identifier : vtkTypeUInt32) (interactor : ptr)
| Call_External (callback : ObserverCallbackF) (sender : vtkTypeUInt32)
                (eventName : string)
| Delete_Bridge (bridge : CallbackBridge).

(** Modelled from the spec: the native subscription mechanism of vtkObject
    (vtkObject::AddObserver, RemoveObserver and InvokeEvent are not among the
    sources).  "any object must expose a generic subscribe/unsubscribe-by-name
    mechanism returning a stable token and guaranteeing at-most-one cleanup
    invocation per subscription".  An observer is a slot holding the token,
    the event it is subscribed to and the callback command, whose client data
    is the bridge. *)
Record vtkObserver : Type := mkObserver {
  Tag : N;
  Event : N;
  ClientData : CallbackBridge
}.

Record vtkSubjectHelper : Type := mkSubject {
  Observers : list vtkObserver;
  Count : N
}.

(** The objects the table can hold.  The table stores vtkObjectBase
    references; the manager tells the classes apart with SafeDownCast.  Of a
    render window the manager only reads the interactor pointer, which may be
    null. *)
Record vtkRenderWindow : Type := mkRenderWindow {
  GetInteractor : option ptr
}.

Inductive vtkClass : Type :=
| IsRenderWindow (renderWindow : vtkRenderWindow)
| IsRenderer
| IsOther.

Record vtkObject : Type := mkObject {
  Class : vtkClass;
  SubjectHelper : vtkSubjectHelper
}.

Inductive vtkObjectBase : Type :=
| Object (o : vtkObject)
| NotObject.

Record State : Type := mkState {
  Objects : gmap N vtkObjectBase;
  InteractorManagesTheEventLoop : bool;
  Log : list Effect
}.

Definition M (A : Type) : Type := State -> Outcome State A.

Definition ret {A} (a : A) : M A := fun s => Returns a s.

Definition bind {A B} (m : M A) (k : A -> M B) : M B :=
  fun s => match m s with
           | Returns a s' => k a s'
           | Faults s' => Faults s'
           end.

Notation "x <- m ;; k" := (bind m (fun x => k))
  (at level 100, m at next level, right associativity).
Notation "m ;;; k" := (bind m (fun _ => k))
  (at level 100, right associativity).

(** The state after the calls [es] have been made. *)
Definition logged (es : list Effect) (s : State) : State :=
  mkState (Objects s) (InteractorManagesTheEventLoop s) (Log s ++ es).

Definition emit (es : list Effect) : M unit :=
  fun s => Returns tt (logged es s).

Definition set_InteractorManagesTheEventLoop (b : bool) : M unit :=
  fun s => Returns tt (mkState (Objects s) b (Log s)).

(** Writing through the pointer held under [identifier]. *)
Definition store (identifier : vtkTypeUInt32) (o : vtkObjectBase) : M unit :=
  fun s => Returns tt (mkState (<[identifier := o]> (Objects s))
                               (InteractorManagesTheEventLoop s) (Log s)).

(** A member call through a pointer: a null pointer faults. *)
Definition deref {A} (p : option A) : M A :=
  fun s => match p with Some a => Returns a s | None => Faults s end.

(** Modelled from the spec: vtkObjectManager::GetObjectAtId (the object
    manager is not among the sources) is the registry's [resolve]: it "returns
    the live object or a miss", the miss being nullptr. *)
Definition GetObjectAtId (identifier : vtkTypeUInt32) : M (option vtkObjectBase) :=
  fun s => Returns (Objects s !! identifier) s.

Definition vtkObject_SafeDownCast (object : option vtkObjectBase) : option vtkObject :=
  match object with
  | Some (Object o) => Some o
  | _ => None
  end.

Definition vtkRenderWindow_SafeDownCast (object : option vtkObjectBase)
  : option vtkRenderWindow :=
  match object with
  | Some (Object (mkObject (IsRenderWindow renderWindow) _)) => Some renderWindow
  | _ => None
  end.

Definition vtkRenderer_SafeDownCast (object : option vtkObjectBase) : option unit :=
  match object with
  | Some (Object (mkObject IsRenderer _)) => Some tt
  | _ => None
  end.

(** ** The operations of vtkWasmSceneManager.cxx *)

Definition SetSize (identifier : vtkTypeUInt32) (width height : Z) : M bool :=
  object <- GetObjectAtId identifier ;;
  match vtkRenderWindow_SafeDownCast object with
  | Some renderWindow =>
      match GetInteractor renderWindow with
      | Some iren => emit [Call_UpdateSize iren width height] ;;; ret true
      | None => ret false
      end
  | None => ret false
  end.

Definition Render (identifier : vtkTypeUInt32) : M bool :=
  object <- GetObjectAtId identifier ;;
  match vtkRenderWindow_SafeDownCast object with
  | Some renderWindow => emit [Call_Render identifier] ;;; ret true
  | None => ret false
  end.

Definition ResetCamera (identifier : vtkTypeUInt32) : M bool :=
  object <- GetObjectAtId identifier ;;
  match vtkRenderer_SafeDownCast object with
  | Some renderer => emit [Call_ResetCamera identifier] ;;; ret true
  | None => ret false
  end.

(** [interactor] is used unchecked: both member calls go through it.  The
    line written to std::cout is one entry of the log, made once the
    interactor's description has been obtained. *)
Definition StartEventLoop (identifier : vtkTypeUInt32) : M bool :=
  set_InteractorManagesTheEventLoop false ;;;
  object <- GetObjectAtId identifier ;;
  match vtkRenderWindow_SafeDownCast object with
  | Some renderWindow =>
      let interactor := GetInteractor renderWindow in
      description <- deref interactor ;;
      emit [Cout_Started identifier description] ;;;
      iren <- deref interactor ;;
      emit [Call_Start iren] ;;;
      ret true
  | None => ret false
  end.

Definition StopEventLoop (identifier : vtkTypeUInt32) : M bool :=
  object <- GetObjectAtId identifier ;;
  match vtkRenderWindow_SafeDownCast object with
  | Some renderWindow =>
      let interactor := GetInteractor renderWindow in
      description <- deref interactor ;;
      emit [Cout_Stopping identifier description] ;;;
      iren <- deref interactor ;;
      emit [Call_TerminateApp iren] ;;;
      ret true
  | None => ret false
  end.

(** ** Observers

    vtkCommand::GetEventIdFromString and vtkCommand::GetStringFromEventId
    (the event table of vtkCommand.h) are not among the sources: they are
    parameters of the development. *)
Section Observers.

Variable GetEventIdFromString : string -> N.
Variable GetStringFromEventId : N -> string.

(** Modelled from the spec: vtkObject::AddObserver(event, cmd) "registers it
    with the native object's subscription mechanism under eventName" and
    returns a fresh token; the slot is owned by the subject. *)
Definition vtkObject_AddObserver (event : string) (cmd : CallbackBridge)
    (sub : vtkSubjectHelper) : N * vtkSubjectHelper :=
  (Count sub,
   mkSubject (Observers sub ++ [mkObserver (Count sub) (GetEventIdFromString event) cmd])
             (Count sub + 1)).

(** Modelled from the spec: vtkObject::RemoveObserver(tag) "removes the native
    subscription matching token, triggering the bridge's cleanup exactly
    once".  The cleanup is the ClientDataDeleteCallback lambda of AddObserver:
    [delete bridge]. *)
Definition vtkObject_RemoveObserver (tag : N) (sub : vtkSubjectHelper)
  : list Effect * vtkSubjectHelper :=
  (Delete_Bridge ∘ ClientData <$> filter (fun ob => Tag ob = tag) (Observers sub),
   mkSubject (filter (fun ob => Tag ob ≠ tag) (Observers sub)) (Count sub)).

(** The Callback lambda of AddObserver:
    [bridge->f(bridge->SenderId, vtkCommand::GetStringFromEventId(eid))]. *)
Definition Callback (eid : N) (clientData : CallbackBridge) : Effect :=
  let bridge := clientData in
  Call_External (f bridge) (SenderId bridge) (GetStringFromEventId eid).

(** Modelled from the spec: a native firing of event [eid] on a subject ("on
    every native event firing, the bridge invokes the external callback",
    "synchronously", "no queuing, no reordering"): the callback of every slot
    subscribed to [eid] runs, in slot order. *)
Definition vtkObject_InvokeEvent (eid : N) (sub : vtkSubjectHelper) : list Effect :=
  Callback eid ∘ ClientData <$> filter (fun ob => Event ob = eid) (Observers sub).

(** The native event [eid] fires on the object registered under [identifier]. *)
Definition InvokeEvent (identifier : vtkTypeUInt32) (eid : N) : M unit :=
  object <- GetObjectAtId identifier ;;
  match vtkObject_SafeDownCast object with
  | Some o => emit (vtkObject_InvokeEvent eid (SubjectHelper o))
  | None => ret tt
  end.

Definition AddObserver (identifier : vtkTypeUInt32) (eventName : string)
    (callback : ObserverCallbackF) : M N :=
  base <- GetObjectAtId identifier ;;
  match vtkObject_SafeDownCast base with
  | None => ret 0
  | Some object =>
      let callbackCmd := mkCallbackBridge callback identifier in
      let '(tag, sub) := vtkObject_AddObserver eventName callbackCmd (SubjectHelper object) in
      store identifier (Object (mkObject (Class object) sub)) ;;;
      ret tag
  end.

Definition RemoveObserver (identifier : vtkTypeUInt32) (tag : N) : M bool :=
  base <- GetObjectAtId identifier ;;
  match vtkObject_SafeDownCast base with
  | None => ret false
  | Some object =>
      let '(cleanup, sub) := vtkObject_RemoveObserver tag (SubjectHelper object) in
      store identifier (Object (mkObject (Class object) sub)) ;;;
      emit cleanup ;;;
      ret true
  end.

End Observers.

(** ** Concrete data for the examples

    A table with a render window driven by interactor 100 under identifier 1,
    a renderer under 2, a render window with no interactor under 3 and a
    vtkObjectBase that is no vtkObject under 4; the global flag is set. *)
Definition no_observers : vtkSubjectHelper := mkSubject [] 1.

Definition demo : State :=
  mkState
    (<[1 := Object (mkObject (IsRenderWindow (mkRenderWindow (Some 100))) no_observers)]>
     (<[2 := Object (mkObject IsRenderer no_observers)]>
      (<[3 := Object (mkObject (IsRenderWindow (mkRenderWindow None)) no_observers)]>
       (<[4 := NotObject]> ∅))))
    true [].

Definition demo_GetEventIdFromString (event : string) : N :=
  if decide (event = "StartEvent"%string) then 3
  else if decide (event = "EndEvent"%string) then 4
  else 0.

Definition demo_GetStringFromEventId (eid : N) : string :=
  if decide (eid = 3) then "StartEvent"
  else if decide (eid = 4) then "EndEvent"
  else "NoEvent".

(** ** What the claims speak of *)

(** The identifier resolves to a registered (vtk)object: the test
    [vtkObject::SafeDownCast(GetObjectAtId(identifier)) != nullptr]. *)
Definition resolves (s : State) (identifier : vtkTypeUInt32) : Prop :=
  is_Some (vtkObject_SafeDownCast (Objects s !! identifier)).

#[global] Instance resolves_dec s identifier : Decision (resolves s identifier).
Proof. unfold resolves. apply _. Defined.

(** The native subject keeps its tokens below the next one, which starts at 1. *)
Definition subject_wf (sub : vtkSubjectHelper) : Prop :=
  0 < Count sub ∧ Forall (fun ob => Tag ob < Count sub) (Observers sub).

(** Every bridge on an object of the table carries the identifier the
    object is registered under; AddObserver and RemoveObserver keep it so. *)
Definition senders_ok (s : State) : Prop :=
  ∀ identifier o, Objects s !! identifier = Some (Object o) →
    Forall (fun ob => SenderId (ClientData ob) = identifier)
           (Observers (SubjectHelper o)).

(** Every object of the table keeps its tokens below its next one. *)
Definition tokens_ok (s : State) : Prop :=
  ∀ identifier o, Objects s !! identifier = Some (Object o) →
    subject_wf (SubjectHelper o).

(** A table whose only object, under identifier 1, carries one observer of
    event 3 made by AddObserver(1, ..., 7). *)
Definition demo_observed : State :=
  mkState
    (<[1 := Object (mkObject IsOther
                      (mkSubject [mkObserver 1 3 (mkCallbackBridge 7 1)] 2))]> ∅)
    true [].

End vtkWasmSceneManager.

Module vtkCornerAnnotation.

(** enum TextPosition of vtkCornerAnnotation.h: the first enumerator is given
    the value 0 and each following one the next integer. *)
Inductive TextPosition : Type :=
| LowerLeft
| LowerRight
| UpperLeft
| UpperRight
| LowerEdge
| RightEdge
| LeftEdge
| UpperEdge.

Definition TextPosition_value (p : TextPosition) : Z :=
  match p with
  | LowerLeft => 0
  | LowerRight => 1
  | UpperLeft => 2
  | UpperRight => 3
  | LowerEdge => 4
  | RightEdge => 5
  | LeftEdge => 6
  | UpperEdge => 7
  end.

(** static const int NumTextPositions = 8: the length of the arrays
    CornerText, TextActor and TextMapper. *)
Definition NumTextPositions : Z := 8.

End vtkCornerAnnotation.

Import vtkWasmSceneManager.

(** * Properties of the scene manager *)

Ltac run :=
  unfold SetSize, Render, ResetCamera, StartEventLoop, StopEventLoop,
    AddObserver, RemoveObserver, InvokeEvent,
    bind, ret, emit, deref, store, GetObjectAtId,
    set_InteractorManagesTheEventLoop; simpl.

Ltac cases_object s identifier :=
  destruct (Objects s !! identifier) as [[[[[?]| |] ?]|]|] eqn:?; simpl in *.

(** ** Faults *)

(** SetSize, Render and ResetCamera return on every input. *)
Lemma checked_operations_return s identifier width height :
  faulted (SetSize identifier width height s) = false
  ∧ faulted (Render identifier s) = false
  ∧ faulted (ResetCamera identifier s) = false.
Proof.
  run. cases_object s identifier; try done.
  match goal with o : option N |- _ => destruct o end; done.
Qed.

(** StartEventLoop and StopEventLoop fault exactly on a render window whose
    interactor pointer is null. *)
Lemma event_loop_fault_iff s identifier :
  (faulted (StartEventLoop identifier s) = true
     ↔ vtkRenderWindow_SafeDownCast (Objects s !! identifier) = Some (mkRenderWindow None))
  ∧ (faulted (StopEventLoop identifier s) = true
     ↔ vtkRenderWindow_SafeDownCast (Objects s !! identifier) = Some (mkRenderWindow None)).
Proof.
  run. cases_object s identifier; try (split; split; (done || congruence)).
  match goal with o : option N |- _ => destruct o end;
    simpl; split; split; (done || congruence).
Qed.

(** C1.  The boundary operations are not all fault-free: on identifier 3 of
    [demo], which resolves to a render window with no attached interactor,
    StartEventLoop and StopEventLoop call a member function through the null
    interactor pointer instead of returning false (SetSize, on the same
    input, tests the pointer and returns false). *)
Theorem C1_event_loop_null_interactor_faults :
  StartEventLoop 3 demo
    = Faults (mkState (Objects demo) false (Log demo))
  ∧ StopEventLoop 3 demo = Faults demo
  ∧ SetSize 3 640 480 demo = Returns false demo.
Proof. repeat split; vm_compute; reflexivity. Qed.

(** ** SetSize *)

(** C4.  SetSize returns true exactly when the identifier resolves to a
    render window with an attached interactor, and then it has made the one
    call UpdateSize(width, height) on that interactor; in every other case,
    and in particular for a render window with no interactor, it returns
    false and the state (so the log of native calls) is unchanged. *)
Theorem C4_SetSize_iff_interactor s identifier width height :
  (returned (SetSize identifier width height s) = Some true
     ↔ ∃ renderWindow iren,
         vtkRenderWindow_SafeDownCast (Objects s !! identifier) = Some renderWindow
         ∧ GetInteractor renderWindow = Some iren)
  ∧ (∀ renderWindow iren,
       vtkRenderWindow_SafeDownCast (Objects s !! identifier) = Some renderWindow →
       GetInteractor renderWindow = Some iren →
       SetSize identifier width height s
         = Returns true (logged [Call_UpdateSize iren width height] s))
  ∧ (∀ renderWindow,
       vtkRenderWindow_SafeDownCast (Objects s !! identifier) = Some renderWindow →
       GetInteractor renderWindow = None →
       SetSize identifier width height s = Returns false s)
  ∧ (vtkRenderWindow_SafeDownCast (Objects s !! identifier) = None →
       SetSize identifier width height s = Returns false s).
Proof.
  run. cases_object s identifier.
  - match goal with o : option N |- _ => destruct o as [iren|] end; simpl.
    + repeat split; try done.
      * intros _. by exists (mkRenderWindow (Some iren)), iren.
      * by intros ? ? [= <-] [= <-].
      * by intros ? [= <-] [=].
    + repeat split; try done.
      * by intros (? & ? & [= <-] & [=]).
      * by intros ? ? [= <-] [=].
  - repeat split; try done. by intros (? & ? & [=] & _).
  - repeat split; try done. by intros (? & ? & [=] & _).
  - repeat split; try done. by intros (? & ? & [=] & _).
  - repeat split; try done. by intros (? & ? & [=] & _).
Qed.

Lemma C4_SetSize_iff_interactor_witness :
  SetSize 1 640 480 demo = Returns true (logged [Call_UpdateSize 100 640 480] demo)
  ∧ SetSize 3 640 480 demo = Returns false demo
  ∧ SetSize 2 640 480 demo = Returns false demo.
Proof.
  split; [|split].
  - apply (proj1 (proj2 (C4_SetSize_iff_interactor demo 1 640 480))
             (mkRenderWindow (Some 100)) 100); reflexivity.
  - apply (proj1 (proj2 (proj2 (C4_SetSize_iff_interactor demo 3 640 480)))
             (mkRenderWindow None)); reflexivity.
  - apply (proj2 (proj2 (proj2 (C4_SetSize_iff_interactor demo 2 640 480))));
      reflexivity.
Defined.

(** ** Misses *)

(** C6.  When the identifier does not resolve to a render window, Render
    returns false and leaves the state, with its log of native calls, as it
    was; likewise ResetCamera when it does not resolve to a renderer.  For an
    identifier that is not in the table, every operation reports the miss:
    false, or the zero token for AddObserver, and no native call is made. *)
Theorem C6_miss_returns_false GetEventIdFromString s identifier :
  (vtkRenderWindow_SafeDownCast (Objects s !! identifier) = None →
     Render identifier s = Returns false s)
  ∧ (vtkRenderer_SafeDownCast (Objects s !! identifier) = None →
       ResetCamera identifier s = Returns false s)
  ∧ (Objects s !! identifier = None →
       (∀ width height, SetSize identifier width height s = Returns false s)
       ∧ Render identifier s = Returns false s
       ∧ ResetCamera identifier s = Returns false s
       ∧ returned (StartEventLoop identifier s) = Some false
       ∧ Log (final (StartEventLoop identifier s)) = Log s
       ∧ StopEventLoop identifier s = Returns false s
       ∧ (∀ eventName callback,
            AddObserver GetEventIdFromString identifier eventName callback s
              = Returns 0 s)
       ∧ (∀ tag, RemoveObserver identifier tag s = Returns false s)).
Proof.
  run. split; [|split].
  - intros H. by destruct (vtkRenderWindow_SafeDownCast _).
  - intros H. by destruct (vtkRenderer_SafeDownCast _).
  - intros ->. simpl. done.
Qed.

Lemma C6_miss_returns_false_witness :
  Render 2 demo = Returns false demo
  ∧ ResetCamera 1 demo = Returns false demo
  ∧ Render 999 demo = Returns false demo
  ∧ AddObserver demo_GetEventIdFromString 999 "StartEvent" 7 demo = Returns 0 demo.
Proof.
  pose proof (C6_miss_returns_false demo_GetEventIdFromString demo 2) as (H2 & _ & _).
  pose proof (C6_miss_returns_false demo_GetEventIdFromString demo 1) as (_ & H1 & _).
  pose proof (C6_miss_returns_false demo_GetEventIdFromString demo 999) as (_ & _ & H9).
  specialize (H2 eq_refl). specialize (H1 eq_refl). specialize (H9 eq_refl).
  destruct H9 as (_ & Hr & _ & _ & _ & _ & Ha & _).
  exact (conj H2 (conj H1 (conj Hr (Ha _ _)))).
Defined.

(** ** The global flag *)

(** C3 as stated fails: StartEventLoop on the unknown identifier 999 returns
    with the flag cleared although it was set before the call. *)
Lemma C3_counterexample :
  ∃ s', StartEventLoop 999 demo = Returns false s'
        ∧ InteractorManagesTheEventLoop s' ≠ InteractorManagesTheEventLoop demo.
Proof. eexists. split; [vm_compute; reflexivity | simpl; discriminate]. Qed.

(** C3, amended.  For every identifier, when StartEventLoop returns the
    global flag is false, whatever value it had before the call: the flag is
    cleared by the call and not put back. *)
Theorem C3_flag_false_after_return s identifier result s' :
  StartEventLoop identifier s = Returns result s' →
  InteractorManagesTheEventLoop s' = false.
Proof.
  run. cases_object s identifier; try by intros [= <- <-].
  match goal with o : option N |- _ => destruct o end; simpl; try done.
  by intros [= <- <-].
Qed.

Lemma C3_flag_false_after_return_witness :
  InteractorManagesTheEventLoop demo = true
  ∧ InteractorManagesTheEventLoop (logged [Cout_Started 1 100; Call_Start 100]
      (mkState (Objects demo) false (Log demo))) = false.
Proof.
  split; [reflexivity|].
  apply (C3_flag_false_after_return demo 1 true). vm_compute. reflexivity.
Defined.

(** C9.  StartEventLoop clears the global flag before it resolves the
    identifier: whatever the identifier and however the call ends, the flag
    is false afterwards; when the identifier does not resolve to a render
    window the call returns false and clearing the flag is its only effect. *)
Theorem C9_flag_cleared_unconditionally s identifier :
  InteractorManagesTheEventLoop (final (StartEventLoop identifier s)) = false
  ∧ (vtkRenderWindow_SafeDownCast (Objects s !! identifier) = None →
       StartEventLoop identifier s
         = Returns false (mkState (Objects s) false (Log s))).
Proof.
  run. cases_object s identifier; try done.
  match goal with o : option N |- _ => destruct o end; done.
Qed.

Lemma C9_flag_cleared_unconditionally_witness :
  InteractorManagesTheEventLoop demo = true
  ∧ StartEventLoop 999 demo = Returns false (mkState (Objects demo) false (Log demo))
  ∧ StartEventLoop 2 demo = Returns false (mkState (Objects demo) false (Log demo)).
Proof.
  split; [reflexivity|]. split.
  - apply (proj2 (C9_flag_cleared_unconditionally demo 999)). reflexivity.
  - apply (proj2 (C9_flag_cleared_unconditionally demo 2)). reflexivity.
Defined.

(** ** Observers: the subject's slots *)

Lemma filter_tag_fresh (l : list vtkObserver) (c : N) :
  Forall (fun ob => Tag ob < c) l →
  filter (fun ob => Tag ob ≠ c) l = l ∧ filter (fun ob => Tag ob = c) l = [].
Proof.
  induction 1 as [|ob l Hob _ [IH1 IH2]]; [done|].
  rewrite !filter_cons.
  destruct (decide (Tag ob ≠ c)) as [_|Hn]; [|exfalso; apply Hn; lia].
  destruct (decide (Tag ob = c)) as [He|_]; [lia|].
  by rewrite IH1, IH2.
Qed.

Lemma filter_tag_removed (l : list vtkObserver) (t : N) :
  filter (fun ob => Tag ob ≠ t) (filter (fun ob => Tag ob ≠ t) l)
    = filter (fun ob => Tag ob ≠ t) l
  ∧ filter (fun ob => Tag ob = t) (filter (fun ob => Tag ob ≠ t) l) = [].
Proof.
  induction l as [|ob l [IH1 IH2]]; [done|].
  rewrite !filter_cons.
  destruct (decide (Tag ob ≠ t)) as [Hne|_]; [|done].
  rewrite !filter_cons.
  destruct (decide (Tag ob ≠ t)); [|done].
  destruct (decide (Tag ob = t)); [done|].
  by rewrite IH1, IH2.
Qed.

Lemma filter_tag_absent (l : list vtkObserver) (t : N) :
  Forall (fun ob => Tag ob ≠ t) l →
  filter (fun ob => Tag ob ≠ t) l = l ∧ filter (fun ob => Tag ob = t) l = [].
Proof.
  induction 1 as [|ob l Hob _ [IH1 IH2]]; [done|].
  rewrite !filter_cons.
  destruct (decide (Tag ob ≠ t)); [|done].
  destruct (decide (Tag ob = t)); [done|].
  by rewrite IH1, IH2.
Qed.

Section ObserverProperties.

Variable GetEventIdFromString : string -> N.
Variable GetStringFromEventId : N -> string.

(** The subject invariant is kept by subscribing and by unsubscribing. *)
Lemma AddObserver_subject_wf event cmd sub :
  subject_wf sub →
  subject_wf (vtkObject_AddObserver GetEventIdFromString event cmd sub).2.
Proof.
  intros [Hc Hall]. split; simpl; [lia|].
  apply Forall_app. split.
  - eapply Forall_impl; [exact Hall|]. simpl. intros; lia.
  - apply Forall_singleton. simpl. lia.
Qed.

Lemma RemoveObserver_subject_wf tag sub :
  subject_wf sub → subject_wf (vtkObject_RemoveObserver tag sub).2.
Proof.
  intros [Hc Hall]. split; simpl; [done|].
  apply Forall_forall. intros ob [_ Hin]%list_elem_of_filter.
  by eapply Forall_forall in Hall.
Qed.

(** C10.  RemoveObserver returns true whenever the identifier resolves to a
    registered object, whatever the token, and false exactly when the
    identifier does not resolve: the result is the same for any two tokens,
    and a token that names no live subscription (never issued, or already
    removed) still gives true, with the state unchanged. *)
Theorem C10_RemoveObserver_result_ignores_token s identifier tag :
  (resolves s identifier → returned (RemoveObserver identifier tag s) = Some true)
  ∧ (¬ resolves s identifier → RemoveObserver identifier tag s = Returns false s)
  ∧ (returned (RemoveObserver identifier tag s) = Some false → ¬ resolves s identifier)
  ∧ (∀ tag', returned (RemoveObserver identifier tag s)
             = returned (RemoveObserver identifier tag' s))
  ∧ (∀ object,
       vtkObject_SafeDownCast (Objects s !! identifier) = Some object →
       Forall (fun ob => Tag ob ≠ tag) (Observers (SubjectHelper object)) →
       RemoveObserver identifier tag s = Returns true s).
Proof.
  unfold resolves. run.
  destruct (Objects s !! identifier) as [[[cls [obs c]]|]|] eqn:Hlook; simpl.
  - split; [done|]. split; [by intros []|]. split; [done|]. split; [done|].
    intros ? [= <-]. simpl. intros [-> ->]%filter_tag_absent.
    unfold logged. simpl. rewrite insert_id, app_nil_r by done. by destruct s.
  - split; [by intros [? [=]]|]. split; [done|].
    split; [by intros _ [? [=]]|]. by split.
  - split; [by intros [? [=]]|]. split; [done|].
    split; [by intros _ [? [=]]|]. by split.
Qed.

Lemma C10_RemoveObserver_result_ignores_token_witness :
  returned (RemoveObserver 1 12345 demo) = Some true
  ∧ RemoveObserver 999 1 demo = Returns false demo
  ∧ RemoveObserver 4 1 demo = Returns false demo
  ∧ RemoveObserver 2 77 demo = Returns true demo.
Proof.
  split; [|split; [|split]].
  - apply (proj1 (C10_RemoveObserver_result_ignores_token demo 1 12345)).
    vm_compute. eauto.
  - apply (proj1 (proj2 (C10_RemoveObserver_result_ignores_token demo 999 1))).
    vm_compute. by intros [? [=]].
  - apply (proj1 (proj2 (C10_RemoveObserver_result_ignores_token demo 4 1))).
    vm_compute. by intros [? [=]].
  - apply (proj2 (proj2 (proj2 (proj2
             (C10_RemoveObserver_result_ignores_token demo 2 77))))
             (mkObject IsRenderer no_observers)); [reflexivity|].
    apply Forall_nil_2.
Defined.

(** What AddObserver does on an identifier that resolves: the token is the
    subject's next one, and the slot is appended to the object in place. *)
Lemma AddObserver_resolved s identifier eventName callback object :
  vtkObject_SafeDownCast (Objects s !! identifier) = Some object →
  AddObserver GetEventIdFromString identifier eventName callback s
    = Returns (Count (SubjectHelper object))
        (mkState
           (<[identifier :=
                Object (mkObject (Class object)
                  (mkSubject
                     (Observers (SubjectHelper object)
                        ++ [mkObserver (Count (SubjectHelper object))
                              (GetEventIdFromString eventName)
                              (mkCallbackBridge callback identifier)])
                     (Count (SubjectHelper object) + 1)))]> (Objects s))
           (InteractorManagesTheEventLoop s) (Log s)).
Proof.
  run. destruct (Objects s !! identifier) as [[o|]|]; simpl; try done.
  by intros [= ->].
Qed.

(** C7.  On an identifier that does not resolve to a registered object
    AddObserver returns the zero token and leaves the state as it was (no
    subscription, no fault).  On one that resolves it returns a non-zero
    token that no live subscription of the object carries, and
    RemoveObserver with that token returns true, takes exactly the new
    subscription off the object and deletes its bridge once. *)
Theorem C7_AddObserver_token s identifier eventName callback :
  (¬ resolves s identifier →
     AddObserver GetEventIdFromString identifier eventName callback s = Returns 0 s)
  ∧ (∀ object,
       vtkObject_SafeDownCast (Objects s !! identifier) = Some object →
       subject_wf (SubjectHelper object) →
       ∃ token s',
         AddObserver GetEventIdFromString identifier eventName callback s
           = Returns token s'
         ∧ token ≠ 0
         ∧ Forall (fun ob => Tag ob ≠ token) (Observers (SubjectHelper object))
         ∧ RemoveObserver identifier token s'
           = Returns true
               (logged [Delete_Bridge (mkCallbackBridge callback identifier)]
                  (mkState
                     (<[identifier :=
                          Object (mkObject (Class object)
                            (mkSubject (Observers (SubjectHelper object))
                                       (token + 1)))]> (Objects s))
                     (InteractorManagesTheEventLoop s) (Log s)))).
Proof.
  split.
  - unfold resolves. run.
    destruct (Objects s !! identifier) as [[o|]|]; simpl; try done.
    intros []. eauto.
  - intros object Hres [Hc Hall].
    eexists _, _. split; [by apply AddObserver_resolved|].
    split; [lia|]. split.
    { eapply Forall_impl; [exact Hall|]. simpl. intros; lia. }
    run. rewrite lookup_insert_eq. simpl.
    rewrite !filter_app, !filter_cons, !filter_nil. simpl.
    destruct (filter_tag_fresh _ _ Hall) as [-> ->].
    destruct (decide (Count (SubjectHelper object) ≠ Count (SubjectHelper object)));
      [done|].
    destruct (decide (Count (SubjectHelper object) = Count (SubjectHelper object)));
      [|done].
    unfold logged. simpl. by rewrite insert_insert_eq, app_nil_r.
Qed.

(** C2 as stated fails: on identifier 1 of [demo], with the token AddObserver
    has just returned, the second RemoveObserver returns true, not false. *)
Lemma C2_counterexample :
  ∃ token s1 s2 s3,
    AddObserver demo_GetEventIdFromString 1 "StartEvent" 7 demo = Returns token s1
    ∧ RemoveObserver 1 token s1 = Returns true s2
    ∧ RemoveObserver 1 token s2 = Returns true s3
    ∧ returned (RemoveObserver 1 token s2) ≠ Some false.
Proof.
  eexists _, _, _, _.
  split; [vm_compute; reflexivity|].
  split; [vm_compute; reflexivity|].
  split; [vm_compute; reflexivity|].
  vm_compute. discriminate.
Qed.

(** C2, amended.  For every identifier that resolves to a registered object
    and the token returned by AddObserver on that identifier, calling
    RemoveObserver(identifier, token) twice in succession returns true on the
    first call and true again on the second; the second removal is a no-op
    (it leaves the state as the first left it), not a fault. *)
Theorem C2_RemoveObserver_twice s identifier eventName callback :
  resolves s identifier →
  ∃ token s1 s2,
    AddObserver GetEventIdFromString identifier eventName callback s
      = Returns token s1
    ∧ RemoveObserver identifier token s1 = Returns true s2
    ∧ RemoveObserver identifier token s2 = Returns true s2.
Proof.
  intros [object Hres].
  eexists _, _, _. split; [by apply AddObserver_resolved|].
  split.
  - run. rewrite lookup_insert_eq. simpl. reflexivity.
  - run. rewrite lookup_insert_eq. simpl.
    match goal with |- context [filter _ (filter _ ?l)] =>
      destruct (filter_tag_removed l (Count (SubjectHelper object))) as [-> ->]
    end.
    unfold logged. simpl. by rewrite !insert_insert_eq, app_nil_r.
Qed.

(** A native firing runs one external call per slot subscribed to the
    event, in slot order, each with the slot's sender and the event's name. *)
Lemma InvokeEvent_one_call_per_slot s identifier eid object :
  vtkObject_SafeDownCast (Objects s !! identifier) = Some object →
  InvokeEvent GetStringFromEventId identifier eid s
    = Returns tt
        (logged
           ((fun ob => Call_External (f (ClientData ob)) (SenderId (ClientData ob))
                         (GetStringFromEventId eid))
              <$> filter (fun ob => Event ob = eid) (Observers (SubjectHelper object)))
           s).
Proof.
  run. destruct (Objects s !! identifier) as [[o|]|]; simpl; try done.
  by intros [= ->].
Qed.

(** AddObserver and RemoveObserver return on every input. *)
Lemma observer_operations_return s identifier eventName callback tag :
  faulted (AddObserver GetEventIdFromString identifier eventName callback s) = false
  ∧ faulted (RemoveObserver identifier tag s) = false.
Proof. run. by destruct (Objects s !! identifier) as [[o|]|]. Qed.

(** The table keeps its tokens in order under AddObserver and RemoveObserver. *)
Lemma AddObserver_tokens_ok s identifier eventName callback :
  tokens_ok s →
  tokens_ok (final (AddObserver GetEventIdFromString identifier eventName callback s)).
Proof.
  intros Hok. run.
  destruct (Objects s !! identifier) as [[o|]|] eqn:Hlook; simpl; try done.
  intros i o'. simpl. rewrite lookup_insert.
  destruct (decide (identifier = i)) as [<-|Hne]; [|by apply Hok].
  intros [= <-]. simpl.
  apply (AddObserver_subject_wf eventName (mkCallbackBridge callback identifier)).
  by eapply Hok.
Qed.

Lemma RemoveObserver_tokens_ok s identifier tag :
  tokens_ok s → tokens_ok (final (RemoveObserver identifier tag s)).
Proof.
  intros Hok. run.
  destruct (Objects s !! identifier) as [[o|]|] eqn:Hlook; simpl; try done.
  intros i o'. simpl. rewrite lookup_insert.
  destruct (decide (identifier = i)) as [<-|Hne]; [|by apply Hok].
  intros [= <-]. simpl. apply (RemoveObserver_subject_wf tag). by eapply Hok.
Qed.

(** AddObserver and RemoveObserver keep the senders of the bridges right. *)
Lemma AddObserver_senders_ok s identifier eventName callback :
  senders_ok s →
  senders_ok (final (AddObserver GetEventIdFromString identifier eventName callback s)).
Proof.
  intros Hok. run.
  destruct (Objects s !! identifier) as [[o|]|] eqn:Hlook; simpl; try done.
  intros i o'. simpl. rewrite lookup_insert.
  destruct (decide (identifier = i)) as [<-|Hne]; [|by apply Hok].
  intros [= <-]. simpl. apply Forall_app. split; [by apply Hok|].
  by apply Forall_singleton.
Qed.

Lemma RemoveObserver_senders_ok s identifier tag :
  senders_ok s → senders_ok (final (RemoveObserver identifier tag s)).
Proof.
  intros Hok. run.
  destruct (Objects s !! identifier) as [[o|]|] eqn:Hlook; simpl; try done.
  intros i o'. simpl. rewrite lookup_insert.
  destruct (decide (identifier = i)) as [<-|Hne]; [|by apply Hok].
  intros [= <-]. simpl.
  apply Forall_forall. intros ob [_ Hin]%list_elem_of_filter.
  specialize (Hok _ _ Hlook). by eapply Forall_forall in Hok.
Qed.

(** C5.  After AddObserver(identifier, eventName, callback) on an identifier
    that resolves, a native firing of an event on the object makes the
    external calls it made before the registration, followed, when the event
    is the subscribed one, by exactly one call of [callback] with
    (identifier, the canonical name of the fired event), made within the
    firing itself; a firing of another event adds no call for this
    registration. *)
Theorem C5_callback_once_per_registration s identifier eventName callback :
  resolves s identifier →
  ∃ token s',
    AddObserver GetEventIdFromString identifier eventName callback s
      = Returns token s'
    ∧ ∀ eid, ∃ before,
        InvokeEvent GetStringFromEventId identifier eid s
          = Returns tt (logged before s)
        ∧ InvokeEvent GetStringFromEventId identifier eid s'
          = Returns tt
              (logged
                 (before ++
                    if decide (eid = GetEventIdFromString eventName)
                    then [Call_External callback identifier (GetStringFromEventId eid)]
                    else [])
                 s').
Proof.
  intros [object Hres].
  eexists _, _. split; [by apply AddObserver_resolved|].
  intros eid. eexists. split; [by apply InvokeEvent_one_call_per_slot|].
  erewrite InvokeEvent_one_call_per_slot
    by (simpl; rewrite lookup_insert_eq; reflexivity).
  simpl. rewrite filter_app, filter_cons, filter_nil, fmap_app. simpl.
  destruct (decide (GetEventIdFromString eventName = eid)) as [<-|Hne].
  - by rewrite decide_True.
  - by rewrite decide_False by congruence.
Qed.

End ObserverProperties.

Lemma C7_AddObserver_token_witness :
  AddObserver demo_GetEventIdFromString 999 "StartEvent" 7 demo = Returns 0 demo
  ∧ ∃ token s',
      AddObserver demo_GetEventIdFromString 1 "StartEvent" 7 demo = Returns token s'
      ∧ token ≠ 0
      ∧ returned (RemoveObserver 1 token s') = Some true.
Proof.
  split.
  - apply (proj1 (C7_AddObserver_token demo_GetEventIdFromString demo 999 "StartEvent" 7)).
    vm_compute. by intros [? [=]].
  - destruct (proj2 (C7_AddObserver_token demo_GetEventIdFromString demo 1 "StartEvent" 7)
                (mkObject (IsRenderWindow (mkRenderWindow (Some 100))) no_observers))
      as (token & s' & Hadd & Hnz & _ & Hrem).
    + reflexivity.
    + split; [reflexivity | apply Forall_nil_2].
    + exists token, s'. split; [exact Hadd|]. split; [exact Hnz|].
      by rewrite Hrem.
Defined.

Lemma C2_RemoveObserver_twice_witness :
  ∃ token s1 s2,
    AddObserver demo_GetEventIdFromString 1 "StartEvent" 7 demo = Returns token s1
    ∧ RemoveObserver 1 token s1 = Returns true s2
    ∧ RemoveObserver 1 token s2 = Returns true s2.
Proof.
  apply (C2_RemoveObserver_twice demo_GetEventIdFromString demo 1 "StartEvent" 7).
  vm_compute. eauto.
Defined.

Lemma C5_callback_once_per_registration_witness :
  ∃ token s',
    AddObserver demo_GetEventIdFromString 1 "StartEvent" 7 demo = Returns token s'
    ∧ ∀ eid, ∃ before,
        InvokeEvent demo_GetStringFromEventId 1 eid demo
          = Returns tt (logged before demo)
        ∧ InvokeEvent demo_GetStringFromEventId 1 eid s'
          = Returns tt
              (logged
                 (before ++
                    if decide (eid = demo_GetEventIdFromString "StartEvent")
                    then [Call_External 7 1 (demo_GetStringFromEventId eid)]
                    else [])
                 s').
Proof.
  apply (C5_callback_once_per_registration
           demo_GetEventIdFromString demo_GetStringFromEventId demo 1 "StartEvent" 7).
  vm_compute. eauto.
Defined.

(** The scenario of the specification on [demo]: StartEvent fires once on the
    render window after the registration, and again after the removal. *)
Example scenario_StartEvent :
  ∃ token s1 s2 s3 s4,
    AddObserver demo_GetEventIdFromString 1 "StartEvent" 7 demo = Returns token s1
    ∧ token ≠ 0
    ∧ InvokeEvent demo_GetStringFromEventId 1 3 s1 = Returns tt s2
    ∧ Log s2 = [Call_External 7 1 "StartEvent"]
    ∧ RemoveObserver 1 token s2 = Returns true s3
    ∧ InvokeEvent demo_GetStringFromEventId 1 3 s3 = Returns tt s4
    ∧ Log s4 = [Call_External 7 1 "StartEvent";
                Delete_Bridge (mkCallbackBridge 7 1)].
Proof.
  eexists _, _, _, _, _.
  split; [vm_compute; reflexivity|]. split; [done|].
  split; [vm_compute; reflexivity|]. split; [reflexivity|].
  split; [vm_compute; reflexivity|].
  split; [vm_compute; reflexivity|]. reflexivity.
Qed.

(** * Properties of the glTF texture conversion *)

Import vtkGLTFTexture.

(** With a supported wrap setting no warning is logged. *)
Lemma GetVTKTexture_supported_wrap_silent New this :
  (WrapS (Sampler this) ≠ MIRRORED_REPEAT ∨ WrapT (Sampler this) ≠ MIRRORED_REPEAT) →
  (GetVTKTexture New this).2 = [].
Proof.
  unfold GetVTKTexture.
  destruct (WrapS (Sampler this)), (WrapT (Sampler this)); simpl; try done.
  intros [?|?]; done.
Qed.

(** C8.  When neither WrapS nor WrapT is CLAMP_TO_EDGE or REPEAT,
    GetVTKTexture logs the one warning "Mirrored texture wrapping is not
    supported!", leaves the wrap settings (Repeat, EdgeClamp) as the texture's
    constructor set them, and returns the texture with the rest of the
    conversion done: colour mode, blending mode and input image are set. *)
Theorem C8_unsupported_wrap_warns_and_returns New this :
  WrapS (Sampler this) ≠ CLAMP_TO_EDGE → WrapT (Sampler this) ≠ CLAMP_TO_EDGE →
  WrapS (Sampler this) ≠ REPEAT → WrapT (Sampler this) ≠ REPEAT →
  ∃ texture,
    GetVTKTexture New this
      = (texture, ["Mirrored texture wrapping is not supported!"%string])
    ∧ Repeat texture = Repeat New
    ∧ EdgeClamp texture = EdgeClamp New
    ∧ ColorMode texture = VTK_COLOR_MODE_DIRECT_SCALARS
    ∧ BlendingMode texture = VTK_TEXTURE_BLENDING_MODE_MODULATE
    ∧ InputData texture = Image this.
Proof.
  intros HS1 HT1 HS2 HT2. unfold GetVTKTexture.
  destruct (WrapS (Sampler this)), (WrapT (Sampler this)); try done.
  simpl. eexists. split; [reflexivity|].
  destruct (_ || _), (_ || _); done.
Qed.

Lemma C8_unsupported_wrap_warns_and_returns_witness :
  ∃ texture,
    GetVTKTexture demo_New demo_mirrored
      = (texture, ["Mirrored texture wrapping is not supported!"%string])
    ∧ Repeat texture = true
    ∧ EdgeClamp texture = false
    ∧ ColorMode texture = VTK_COLOR_MODE_DIRECT_SCALARS
    ∧ BlendingMode texture = VTK_TEXTURE_BLENDING_MODE_MODULATE
    ∧ InputData texture = Some 5.
Proof.
  apply (C8_unsupported_wrap_warns_and_returns demo_New demo_mirrored);
    discriminate.
Defined.

(** ** The conversion beyond the unsupported case *)

Ltac cases_sampler this :=
  destruct this as [[mag min ws wt] image];
  destruct mag, min, ws, wt; simpl.

Ltac settle := intuition (discriminate || congruence).

(** X1.  Mipmapping follows the minification filter alone: it is off exactly
    when MinFilter is NEAREST or LINEAR, whatever the magnification filter,
    the wrap modes and the constructed texture are. *)
Theorem X1_mipmap_follows_min_filter New this :
  Mipmap (GetVTKTexture New this).1 = false
    ↔ MinFilter (Sampler this) = NEAREST ∨ MinFilter (Sampler this) = LINEAR.
Proof. cases_sampler this; settle. Qed.

(** X2.  CLAMP_TO_EDGE on either axis wins: the texture has Repeat off and
    EdgeClamp on and no warning is logged, also when the other axis asks for
    REPEAT or MIRRORED_REPEAT. *)
Theorem X2_clamp_on_either_axis_wins New this :
  WrapS (Sampler this) = CLAMP_TO_EDGE ∨ WrapT (Sampler this) = CLAMP_TO_EDGE →
  Repeat (GetVTKTexture New this).1 = false
  ∧ EdgeClamp (GetVTKTexture New this).1 = true
  ∧ (GetVTKTexture New this).2 = [].
Proof. cases_sampler this; settle. Qed.

Lemma X2_clamp_on_either_axis_wins_witness :
  Repeat (GetVTKTexture demo_New
            (mkGLTFTexture (mkSampler NEAREST NEAREST REPEAT CLAMP_TO_EDGE) None)).1
    = false
  ∧ EdgeClamp (GetVTKTexture demo_New
            (mkGLTFTexture (mkSampler NEAREST NEAREST REPEAT CLAMP_TO_EDGE) None)).1
    = true
  ∧ (GetVTKTexture demo_New
            (mkGLTFTexture (mkSampler NEAREST NEAREST REPEAT CLAMP_TO_EDGE) None)).2
    = [].
Proof.
  apply (X2_clamp_on_either_axis_wins demo_New
           (mkGLTFTexture (mkSampler NEAREST NEAREST REPEAT CLAMP_TO_EDGE) None)).
  right. reflexivity.
Defined.

(** X3.  With no CLAMP_TO_EDGE axis, REPEAT on either axis gives Repeat on
    and EdgeClamp off with no warning: a MIRRORED_REPEAT on the other axis is
    dropped silently. *)
Theorem X3_repeat_on_either_axis New this :
  WrapS (Sampler this) ≠ CLAMP_TO_EDGE → WrapT (Sampler this) ≠ CLAMP_TO_EDGE →
  WrapS (Sampler this) = REPEAT ∨ WrapT (Sampler this) = REPEAT →
  Repeat (GetVTKTexture New this).1 = true
  ∧ EdgeClamp (GetVTKTexture New this).1 = false
  ∧ (GetVTKTexture New this).2 = [].
Proof. cases_sampler this; settle. Qed.

Lemma X3_repeat_on_either_axis_witness :
  Repeat (GetVTKTexture demo_New
            (mkGLTFTexture (mkSampler NEAREST NEAREST MIRRORED_REPEAT REPEAT) None)).1
    = true
  ∧ EdgeClamp (GetVTKTexture demo_New
            (mkGLTFTexture (mkSampler NEAREST NEAREST MIRRORED_REPEAT REPEAT) None)).1
    = false
  ∧ (GetVTKTexture demo_New
            (mkGLTFTexture (mkSampler NEAREST NEAREST MIRRORED_REPEAT REPEAT) None)).2
    = [].
Proof.
  apply (X3_repeat_on_either_axis demo_New
           (mkGLTFTexture (mkSampler NEAREST NEAREST MIRRORED_REPEAT REPEAT) None));
    [discriminate | discriminate | right; reflexivity].
Defined.

(** X4.  A warning is logged exactly when neither axis is CLAMP_TO_EDGE or
    REPEAT (both are MIRRORED_REPEAT), and then it is the single
    mirrored-wrapping message. *)
Theorem X4_warning_iff_no_supported_axis New this :
  ((GetVTKTexture New this).2 ≠ []
     ↔ WrapS (Sampler this) ≠ CLAMP_TO_EDGE ∧ WrapT (Sampler this) ≠ CLAMP_TO_EDGE
       ∧ WrapS (Sampler this) ≠ REPEAT ∧ WrapT (Sampler this) ≠ REPEAT)
  ∧ ((GetVTKTexture New this).2 = []
     ∨ (GetVTKTexture New this).2
         = ["Mirrored texture wrapping is not supported!"%string]).
Proof. cases_sampler this; settle. Qed.

(** X5.  Interpolation is only ever switched on: the returned texture
    interpolates exactly when the constructed one did or when the
    minification or the magnification filter is one of LINEAR,
    LINEAR_MIPMAP_NEAREST, NEAREST_MIPMAP_LINEAR, LINEAR_MIPMAP_LINEAR. *)
Theorem X5_interpolation_only_switched_on New this :
  Interpolate (GetVTKTexture New this).1 = true
    ↔ Interpolate New = true
      ∨ MinFilter (Sampler this)
          ∈ [LINEAR; LINEAR_MIPMAP_NEAREST; NEAREST_MIPMAP_LINEAR; LINEAR_MIPMAP_LINEAR]
      ∨ MagFilter (Sampler this)
          ∈ [LINEAR; LINEAR_MIPMAP_NEAREST; NEAREST_MIPMAP_LINEAR; LINEAR_MIPMAP_LINEAR].
Proof.
  cases_sampler this; rewrite !elem_of_cons, !elem_of_nil; settle.
Qed.

(** X6.  The two wrap axes are interchangeable: exchanging WrapS and WrapT
    gives the same texture and the same warnings. *)
Theorem X6_wrap_axes_interchangeable New mag min ws wt image :
  GetVTKTexture New (mkGLTFTexture (mkSampler mag min ws wt) image)
    = GetVTKTexture New (mkGLTFTexture (mkSampler mag min wt ws) image).
Proof. destruct mag, min, ws, wt; reflexivity. Qed.



(** X8.  Whatever the sampler and the constructed texture, and also when the
    image pointer is null, the returned texture has colour mode direct
    scalars, blending mode modulate and the object's image as its input. *)
Theorem X8_fixed_settings_always_written New this :
  ColorMode (GetVTKTexture New this).1 = VTK_COLOR_MODE_DIRECT_SCALARS
  ∧ BlendingMode (GetVTKTexture New this).1 = VTK_TEXTURE_BLENDING_MODE_MODULATE
  ∧ InputData (GetVTKTexture New this).1 = Image this.
Proof. cases_sampler this; done. Qed.

(** * Properties of the corner annotation's declarations *)

(** X9.  The enumerators of TextPosition are exactly the indices of the
    arrays of length NumTextPositions: every position has an index in
    [0, NumTextPositions), two positions never share an index, and every
    index in that range belongs to a position. *)
Theorem X9_TextPosition_indexes_the_arrays :
  (∀ p, (0 ≤ vtkCornerAnnotation.TextPosition_value p
           < vtkCornerAnnotation.NumTextPositions)%Z)
  ∧ (∀ p q, vtkCornerAnnotation.TextPosition_value p
              = vtkCornerAnnotation.TextPosition_value q → p = q)
  ∧ (∀ i, (0 ≤ i < vtkCornerAnnotation.NumTextPositions)%Z →
          ∃ p, vtkCornerAnnotation.TextPosition_value p = i).
Proof.
  unfold vtkCornerAnnotation.NumTextPositions. split; [|split].
  - intros []; simpl; lia.
  - intros [] []; simpl; intros; (reflexivity || lia).
  - intros i Hi.
    assert (i = 0 ∨ i = 1 ∨ i = 2 ∨ i = 3 ∨ i = 4 ∨ i = 5 ∨ i = 6 ∨ i = 7)%Z
      as Hc by lia.
    destruct Hc as [->|[->|[->|[->|[->|[->|[->| ->]]]]]]].
    + by exists vtkCornerAnnotation.LowerLeft.
    + by exists vtkCornerAnnotation.LowerRight.
    + by exists vtkCornerAnnotation.UpperLeft.
    + by exists vtkCornerAnnotation.UpperRight.
    + by exists vtkCornerAnnotation.LowerEdge.
    + by exists vtkCornerAnnotation.RightEdge.
    + by exists vtkCornerAnnotation.LeftEdge.
    + by exists vtkCornerAnnotation.UpperEdge.
Qed.

Lemma X9_TextPosition_indexes_the_arrays_witness :
  ∃ p, vtkCornerAnnotation.TextPosition_value p = 7%Z.
Proof.
  apply (proj2 (proj2 X9_TextPosition_indexes_the_arrays) 7%Z).
  unfold vtkCornerAnnotation.NumTextPositions. lia.
Defined.

(** * More on the scene manager *)

(** X10.  Render asks for a render window and nothing more: it returns true
    exactly when the identifier resolves to a render window, with or without
    an interactor, and then it has made the one call Render() on it. *)
Theorem X10_Render_needs_no_interactor s identifier :
  (returned (Render identifier s) = Some true
     ↔ is_Some (vtkRenderWindow_SafeDownCast (Objects s !! identifier)))
  ∧ (is_Some (vtkRenderWindow_SafeDownCast (Objects s !! identifier)) →
       Render identifier s = Returns true (logged [Call_Render identifier] s)).
Proof.
  run. cases_object s identifier; (split; [split|]); try done;
    try (by intros [? [=]]); eauto.
Qed.

Lemma X10_Render_needs_no_interactor_witness :
  SetSize 3 640 480 demo = Returns false demo
  ∧ Render 3 demo = Returns true (logged [Call_Render 3] demo).
Proof.
  split; [reflexivity|].
  apply (proj2 (X10_Render_needs_no_interactor demo 3)). vm_compute. eauto.
Defined.

(** X11.  ResetCamera returns true exactly when the identifier resolves to a
    renderer, and then it has made the one call ResetCamera() on it. *)
Theorem X11_ResetCamera_iff_renderer s identifier :
  (returned (ResetCamera identifier s) = Some true
     ↔ is_Some (vtkRenderer_SafeDownCast (Objects s !! identifier)))
  ∧ (is_Some (vtkRenderer_SafeDownCast (Objects s !! identifier)) →
       ResetCamera identifier s
         = Returns true (logged [Call_ResetCamera identifier] s)).
Proof.
  run. cases_object s identifier; (split; [split|]); try done;
    try (by intros [? [=]]); eauto.
Qed.

Lemma X11_ResetCamera_iff_renderer_witness :
  ResetCamera 2 demo = Returns true (logged [Call_ResetCamera 2] demo).
Proof.
  apply (proj2 (X11_ResetCamera_iff_renderer demo 2)). vm_compute. eauto.
Defined.



(** X13.  On a render window with an attached interactor StopEventLoop
    returns true having written its line to the output and then called
    TerminateApp() on that interactor, leaving the table and the global flag
    as they were; this is the only case in which it returns true. *)
Theorem X13_StopEventLoop_success s identifier :
  (returned (StopEventLoop identifier s) = Some true
     ↔ ∃ renderWindow iren,
         vtkRenderWindow_SafeDownCast (Objects s !! identifier) = Some renderWindow
         ∧ GetInteractor renderWindow = Some iren)
  ∧ (∀ renderWindow iren,
       vtkRenderWindow_SafeDownCast (Objects s !! identifier) = Some renderWindow →
       GetInteractor renderWindow = Some iren →
       StopEventLoop identifier s
         = Returns true
             (logged [Cout_Stopping identifier iren; Call_TerminateApp iren] s)).
Proof.
  run. cases_object s identifier.
  - match goal with o : option N |- _ => destruct o as [iren|] end; simpl.
    + split; [split; [|done]|].
      * intros _. by exists (mkRenderWindow (Some iren)), iren.
      * intros ? ? [= <-] [= <-]. unfold logged. simpl.
        by rewrite <- app_assoc.
    + split; [split; [done|]|].
      * by intros (? & ? & [= <-] & [=]).
      * by intros ? ? [= <-] [=].
  - split; [split; [done|]|]; [by intros (? & ? & [=] & _) | by intros ? ? [=]].
  - split; [split; [done|]|]; [by intros (? & ? & [=] & _) | by intros ? ? [=]].
  - split; [split; [done|]|]; [by intros (? & ? & [=] & _) | by intros ? ? [=]].
  - split; [split; [done|]|]; [by intros (? & ? & [=] & _) | by intros ? ? [=]].
Qed.

Lemma X13_StopEventLoop_success_witness :
  StopEventLoop 1 demo
    = Returns true (logged [Cout_Stopping 1 100; Call_TerminateApp 100] demo).
Proof.
  apply (proj2 (X13_StopEventLoop_success demo 1)
           (mkRenderWindow (Some 100)) 100); reflexivity.
Defined.

(** X14.  Whenever SetSize succeeds on an identifier, Render, StartEventLoop
    and StopEventLoop succeed on it in the same state too: an object that can
    be resized can be rendered and have its event loop driven. *)
Theorem X14_resizable_implies_drivable s identifier width height :
  returned (SetSize identifier width height s) = Some true →
  returned (Render identifier s) = Some true
  ∧ returned (StartEventLoop identifier s) = Some true
  ∧ returned (StopEventLoop identifier s) = Some true.
Proof.
  run. cases_object s identifier; try done.
  match goal with o : option N |- _ => destruct o end; done.
Qed.

Lemma X14_resizable_implies_drivable_witness :
  returned (Render 1 demo) = Some true
  ∧ returned (StartEventLoop 1 demo) = Some true
  ∧ returned (StopEventLoop 1 demo) = Some true.
Proof.
  apply (X14_resizable_implies_drivable demo 1 640 480). reflexivity.
Defined.

(** The downcasts look at the class of an object, not at its observers. *)
Lemma downcasts_ignore_subject o sub :
  vtkRenderWindow_SafeDownCast (Some (Object (mkObject (Class o) sub)))
    = vtkRenderWindow_SafeDownCast (Some (Object o))
  ∧ vtkRenderer_SafeDownCast (Some (Object (mkObject (Class o) sub)))
    = vtkRenderer_SafeDownCast (Some (Object o)).
Proof. by destruct o as [[?| |] ?]. Qed.


Section Frames.

Variable GetEventIdFromString : string -> N.
Variable GetStringFromEventId : N -> string.

(** X15.  No operation faults except the two event-loop operations, and
    these fault exactly when the identifier resolves to a render window whose
    interactor pointer is null. *)
Theorem X15_faults_only_on_null_interactor
    s identifier width height eventName callback tag :
  faulted (SetSize identifier width height s) = false
  ∧ faulted (Render identifier s) = false
  ∧ faulted (ResetCamera identifier s) = false
  ∧ faulted (AddObserver GetEventIdFromString identifier eventName callback s) = false
  ∧ faulted (RemoveObserver identifier tag s) = false
  ∧ (faulted (StartEventLoop identifier s) = true
       ↔ vtkRenderWindow_SafeDownCast (Objects s !! identifier)
           = Some (mkRenderWindow None))
  ∧ (faulted (StopEventLoop identifier s) = true
       ↔ vtkRenderWindow_SafeDownCast (Objects s !! identifier)
           = Some (mkRenderWindow None)).
Proof.
  destruct (checked_operations_return s identifier width height) as (H1 & H2 & H3).
  destruct (observer_operations_return GetEventIdFromString s identifier
              eventName callback tag) as (H4 & H5).
  destruct (event_loop_fault_iff s identifier) as (H6 & H7).
  done.
Qed.

(** X16.  SetSize, Render, ResetCamera, StartEventLoop and StopEventLoop
    never touch the table: no object is added, removed or changed, and no
    observer is lost, whether the call returns true, returns false or
    faults. *)
Theorem X16_control_operations_keep_the_table s identifier width height :
  Objects (final (SetSize identifier width height s)) = Objects s
  ∧ Objects (final (Render identifier s)) = Objects s
  ∧ Objects (final (ResetCamera identifier s)) = Objects s
  ∧ Objects (final (StartEventLoop identifier s)) = Objects s
  ∧ Objects (final (StopEventLoop identifier s)) = Objects s.
Proof.
  run. cases_object s identifier; try done.
  match goal with o : option N |- _ => destruct o end; done.
Qed.

(** X17.  AddObserver and RemoveObserver change nothing but the observers of
    the object under their identifier: every other entry of the table is
    untouched, the object keeps its class (the render-window and renderer
    downcasts give what they gave), the identifiers that resolve are the
    same, and AddObserver makes no native or external call. *)
Theorem X17_observer_operations_frame
    s identifier eventName callback tag other :
  let s1 := final (AddObserver GetEventIdFromString identifier eventName callback s) in
  let s2 := final (RemoveObserver identifier tag s) in
  (other ≠ identifier → Objects s1 !! other = Objects s !! other)
  ∧ (other ≠ identifier → Objects s2 !! other = Objects s !! other)
  ∧ vtkRenderWindow_SafeDownCast (Objects s1 !! other)
      = vtkRenderWindow_SafeDownCast (Objects s !! other)
  ∧ vtkRenderWindow_SafeDownCast (Objects s2 !! other)
      = vtkRenderWindow_SafeDownCast (Objects s !! other)
  ∧ vtkRenderer_SafeDownCast (Objects s1 !! other)
      = vtkRenderer_SafeDownCast (Objects s !! other)
  ∧ vtkRenderer_SafeDownCast (Objects s2 !! other)
      = vtkRenderer_SafeDownCast (Objects s !! other)
  ∧ (resolves s1 other ↔ resolves s other)
  ∧ (resolves s2 other ↔ resolves s other)
  ∧ Log s1 = Log s.
Proof.
  unfold resolves. run.
  destruct (Objects s !! identifier) as [[o|]|] eqn:Hlook; simpl;
    try (repeat split; done).
  rewrite !lookup_insert.
  destruct (decide (identifier = other)) as [<-|Hne].
  - rewrite Hlook.
    destruct (downcasts_ignore_subject o
                (vtkObject_AddObserver GetEventIdFromString eventName
                   (mkCallbackBridge callback identifier) (SubjectHelper o)).2)
      as [Ha1 Ha2].
    destruct (downcasts_ignore_subject o
                (vtkObject_RemoveObserver tag (SubjectHelper o)).2) as [Hr1 Hr2].
    simpl in Ha1, Ha2, Hr1, Hr2.
    repeat split; try done; simpl; eauto.
  - repeat split; done.
Qed.

(** X18.  StartEventLoop is the only operation that writes the global flag:
    the six others leave it as it was, so once cleared the flag is never set
    again by the scene manager. *)
Theorem X18_only_StartEventLoop_writes_the_flag
    s identifier width height eventName callback tag :
  InteractorManagesTheEventLoop (final (SetSize identifier width height s))
    = InteractorManagesTheEventLoop s
  ∧ InteractorManagesTheEventLoop (final (Render identifier s))
    = InteractorManagesTheEventLoop s
  ∧ InteractorManagesTheEventLoop (final (ResetCamera identifier s))
    = InteractorManagesTheEventLoop s
  ∧ InteractorManagesTheEventLoop (final (StopEventLoop identifier s))
    = InteractorManagesTheEventLoop s
  ∧ InteractorManagesTheEventLoop
      (final (AddObserver GetEventIdFromString identifier eventName callback s))
    = InteractorManagesTheEventLoop s
  ∧ InteractorManagesTheEventLoop (final (RemoveObserver identifier tag s))
    = InteractorManagesTheEventLoop s.
Proof.
  run. cases_object s identifier; try done.
  match goal with o : option N |- _ => destruct o end; done.
Qed.


End Frames.

Lemma X17_observer_operations_frame_witness :
  Objects (final (AddObserver demo_GetEventIdFromString 1 "StartEvent" 7 demo)) !! 2
    = Objects demo !! 2
  ∧ Objects (final (RemoveObserver 1 5 demo)) !! 2 = Objects demo !! 2.
Proof.
  pose proof (X17_observer_operations_frame demo_GetEventIdFromString
                demo 1 "StartEvent" 7 5 2) as (Ha & Hr & _).
  split; [apply Ha | apply Hr]; discriminate.
Defined.

(** ** Delivery *)

Section Delivery.

Variable GetEventIdFromString : string -> N.
Variable GetStringFromEventId : N -> string.

(** X20.  When every bridge in the table carries the identifier its object
    is registered under, AddObserver and RemoveObserver keep it so, and a
    firing of any event on the object under an identifier only makes external
    calls whose sender is that identifier and whose name is the name of the
    fired event. *)
Theorem X20_sender_is_the_registration_identifier
    s identifier eventName callback tag eid :
  senders_ok s →
  senders_ok (final (AddObserver GetEventIdFromString identifier eventName callback s))
  ∧ senders_ok (final (RemoveObserver identifier tag s))
  ∧ ∃ calls,
      InvokeEvent GetStringFromEventId identifier eid s = Returns tt (logged calls s)
      ∧ Forall (fun e => ∃ cb, e = Call_External cb identifier (GetStringFromEventId eid))
               calls.
Proof.
  intros Hok.
  split; [by apply AddObserver_senders_ok|].
  split; [by apply RemoveObserver_senders_ok|].
  run. destruct (Objects s !! identifier) as [[o|]|] eqn:Hlook; simpl.
  - eexists. split; [reflexivity|].
    apply Forall_fmap, Forall_forall.
    intros ob [_ Hin]%list_elem_of_filter. simpl.
    specialize (Hok _ _ Hlook).
    eapply Forall_forall in Hok; [|exact Hin].
    unfold Callback. rewrite Hok. eauto.
  - exists []. split; [|done]. unfold logged. rewrite app_nil_r. by destruct s.
  - exists []. split; [|done]. unfold logged. rewrite app_nil_r. by destruct s.
Qed.


(** X22.  Removal stops delivery: after AddObserver and then RemoveObserver
    with the token it returned, a firing of any event on the object makes
    exactly the external calls it made before the registration. *)
Theorem X22_removal_stops_delivery s identifier eventName callback object :
  vtkObject_SafeDownCast (Objects s !! identifier) = Some object →
  subject_wf (SubjectHelper object) →
  ∃ token s1 s2,
    AddObserver GetEventIdFromString identifier eventName callback s
      = Returns token s1
    ∧ RemoveObserver identifier token s1 = Returns true s2
    ∧ ∀ eid, ∃ calls,
        InvokeEvent GetStringFromEventId identifier eid s
          = Returns tt (logged calls s)
        ∧ InvokeEvent GetStringFromEventId identifier eid s2
          = Returns tt (logged calls s2).
Proof.
  intros Hres [Hc Hall].
  eexists _, _, _. split; [by apply AddObserver_resolved|].
  split.
  { run. rewrite lookup_insert_eq. simpl. reflexivity. }
  intros eid. eexists. split; [by apply InvokeEvent_one_call_per_slot|].
  erewrite InvokeEvent_one_call_per_slot
    by (simpl; rewrite lookup_insert_eq; reflexivity).
  simpl. rewrite !filter_app, !filter_cons, !filter_nil. simpl.
  destruct (filter_tag_fresh _ _ Hall) as [-> _].
  destruct (decide (Count (SubjectHelper object) ≠ Count (SubjectHelper object)));
    [done|].
  rewrite ?filter_nil, ?app_nil_r. reflexivity.
Qed.

End Delivery.

Lemma senders_ok_demo_observed : senders_ok demo_observed.
Proof.
  intros i o. unfold demo_observed. simpl. rewrite lookup_insert.
  destruct (decide (1 = i)) as [<-|_]; [|by rewrite lookup_empty].
  intros [= <-]. simpl. by apply Forall_singleton.
Qed.

Lemma X20_sender_is_the_registration_identifier_witness :
  ∃ calls,
    InvokeEvent demo_GetStringFromEventId 1 3 demo_observed
      = Returns tt (logged calls demo_observed)
    ∧ Forall (fun e => ∃ cb, e = Call_External cb 1 (demo_GetStringFromEventId 3))
             calls.
Proof.
  apply (X20_sender_is_the_registration_identifier
           demo_GetEventIdFromString demo_GetStringFromEventId
           demo_observed 1 "StartEvent" 7 1 3).
  apply senders_ok_demo_observed.
Defined.


Lemma X22_removal_stops_delivery_witness :
  ∃ token s1 s2,
    AddObserver demo_GetEventIdFromString 1 "EndEvent" 9 demo_observed
      = Returns token s1
    ∧ RemoveObserver 1 token s1 = Returns true s2
    ∧ ∀ eid, ∃ calls,
        InvokeEvent demo_GetStringFromEventId 1 eid demo_observed
          = Returns tt (logged calls demo_observed)
        ∧ InvokeEvent demo_GetStringFromEventId 1 eid s2
          = Returns tt (logged calls s2).
Proof.
  apply (X22_removal_stops_delivery
           demo_GetEventIdFromString demo_GetStringFromEventId
           demo_observed 1 "EndEvent" 9
           (mkObject IsOther (mkSubject [mkObserver 1 3 (mkCallbackBridge 7 1)] 2))).
  - reflexivity.
  - split; [reflexivity|]. apply Forall_singleton. reflexivity.
Defined.
